(** * lib/core/replication.py: the sqlite replication helper, embedded in Rocq

    The module is a thin layer over Python's [sqlite3]: a [Replication] object
    owns a connection, a [Table] issues DROP / CREATE / INSERT / SELECT texts
    through the single [execute] method, and engine errors are translated to
    sqlmap's exception classes.

    The embedding is shallow.  Methods become functions in a state-and-exception
    monad over a [World] that holds the database reached through the connection
    and the log of the calls made to [cursor.execute].  The sqlite3 engine and
    the helpers imported from the rest of sqlmap are collaborators: they are
    fields of the record [Collaborators], never axioms. *)

From Stdlib Require Import String Ascii List ZArith Bool Arith Lia DecimalString.
Import ListNotations.
Open Scope string_scope.

(** ** Python values *)

(** [Replication.DataType]: a name and its two printers. *)
Record DataType := mkDataType { dt_name : string }.

Definition DataType___str__ (self : DataType) : string := dt_name self.

Definition DataType___repr__ (self : DataType) : string :=
  "<DataType: " ++ DataType___str__ self ++ ">".

(** The five class-level constants. *)
Definition NULL := mkDataType "NULL".
Definition INTEGER := mkDataType "INTEGER".
Definition REAL := mkDataType "REAL".
Definition TEXT := mkDataType "TEXT".
Definition BLOB := mkDataType "BLOB".

(** The objects that reach this module as names, column specifications and
    row values.  Strings are sequences of one-byte characters. *)
#[warnings="-register-all"]
Inductive pyval : Type :=
| PNone
| PInt (z : Z)
| PStr (s : string)
| PData (d : DataType)
| PTuple (l : list pyval)
| PList (l : list pyval).

(** The double quote character, U+0022. *)
Definition dq : string := String (ascii_of_nat 34) EmptyString.

Definition string_of_Z (z : Z) : string := NilZero.string_of_int (Z.to_int z).

(** [sep.join(l)] *)
Definition join (sep : string) (l : list string) : string := String.concat sep l.

(** ** Exceptions *)

Inductive exn_class : Type :=
(* sqlite3 *)
| OperationalError | DatabaseError | IntegrityError | ProgrammingError
| InterfaceError
(* builtins *)
| TypeError | ValueError
(* lib.core.exception *)
| SqlmapConnectionException | SqlmapGenericException | SqlmapValueException.

Record exn := Exn { exn_cls : exn_class; exn_msg : string }.

(** [except sqlite3.OperationalError]: the class has no subclass among the
    classes above. *)
Definition is_OperationalError (ex : exn) : bool :=
  match exn_cls ex with OperationalError => true | _ => false end.

(** [except Exception]: every class above derives from [Exception]. *)
Definition is_Exception (ex : exn) : bool := true.

Inductive result (A : Type) : Type :=
| Return (a : A)
| Raise (ex : exn).
Arguments Return {A} a.
Arguments Raise {A} ex.

Definition rbind {A B} (r : result A) (k : A -> result B) : result B :=
  match r with
  | Return a => k a
  | Raise ex => Raise ex
  end.

(** ** Collaborators *)

Record Collaborators : Type := {
  (* the sqlite3 engine *)
  DB : Type;
  Cursor : Type;
  sqlite3_connect : string -> result DB;
  cursor_execute : string -> list pyval -> DB -> result Cursor * DB;
  (* lib.core.common, lib.core.settings, lib.utils.safe2bin *)
  unsafeSQLIdentificatorNaming : pyval -> pyval;
  getSafeExString : exn -> option string -> string;
  UNICODE_ENCODING : string;
  safechardecode : list pyval -> list pyval;
  (* the builtin repr of a str *)
  str_repr : string -> string
}.

Section Replication.

Variable env : Collaborators.

(** *** Formatting, as an f-string field [{x}] does it *)

Fixpoint py_repr (v : pyval) : string :=
  match v with
  | PNone => "None"
  | PInt z => string_of_Z z
  | PStr s => str_repr env s
  | PData d => DataType___repr__ d
  | PTuple l =>
      "(" ++ join ", " (map py_repr l)
          ++ match l with [_] => "," | _ => "" end ++ ")"
  | PList l => "[" ++ join ", " (map py_repr l) ++ "]"
  end.

Definition py_str (v : pyval) : string :=
  match v with
  | PStr s => s
  | PData d => DataType___str__ d
  | _ => py_repr v
  end.

(** *** The world and the monad *)

(** One call [cursor.execute(sql, parameters)]. *)
Definition call : Type := (string * list pyval)%type.

Record World : Type := mkWorld {
  db : DB env;            (* the database behind the connection *)
  issued : list call      (* calls made to cursor.execute, oldest first *)
}.

Definition M (A : Type) : Type := World -> result A * World.

Definition ret {A} (a : A) : M A := fun w => (Return a, w).

Definition raise {A} (ex : exn) : M A := fun w => (Raise ex, w).

Definition bind {A B} (m : M A) (k : A -> M B) : M B :=
  fun w =>
    match m w with
    | (Return a, w') => k a w'
    | (Raise ex, w') => (Raise ex, w')
    end.

Definition lift {A} (r : result A) : M A := fun w => (r, w).

(** [try: body  except C as ex: handler(ex)], where [catches] is the test
    [isinstance(ex, C)]. *)
Definition try_except {A} (body : M A) (catches : exn -> bool)
    (handler : exn -> M A) : M A :=
  fun w =>
    match body w with
    | (Return a, w') => (Return a, w')
    | (Raise ex, w') =>
        if catches ex then handler ex w' else (Raise ex, w')
    end.

Notation "x <- m ;; k" := (bind m (fun x => k))
  (at level 61, m at next level, right associativity).
Notation "m ;;; k" := (bind m (fun _ => k))
  (at level 61, right associativity).

(** What a method hands back: [None], or the cursor of the engine. *)
Inductive retval : Type :=
| RNone
| RCursor (c : Cursor env).

(** *** Replication *)

Record Replication : Type := mkReplication { dbpath : string }.

Definition connect_errMsg (path : string) (ex : exn) : string :=
  "error occurred while opening a replication "
  ++ "file '" ++ path ++ "' ('" ++ getSafeExString env ex None ++ "')".

(** [Replication.__init__]: the connection, once open, gives the world its
    database; setting [isolation_level] and taking the cursor do not fail. *)
Definition Replication_init (path : string) : result (Replication * World) :=
  match sqlite3_connect env path with
  | Return d => Return (mkReplication path, mkWorld d [])
  | Raise ex =>
      if is_OperationalError ex
      then Raise (Exn SqlmapConnectionException (connect_errMsg path ex))
      else Raise ex
  end.

(** *** Table *)

Record Table : Type := mkTable {
  parent : Replication;
  name : pyval;
  columns : option (list pyval)
}.

(** [parameters or []] *)
Definition or_empty (parameters : option (list pyval)) : list pyval :=
  match parameters with
  | Some (x :: l) => x :: l
  | _ => []
  end.

Definition execute_errMsg (path : string) (ex : exn) : string :=
  "problem occurred ('" ++ getSafeExString env ex (Some (UNICODE_ENCODING env))
  ++ "') while accessing sqlite database "
  ++ "located at '" ++ path ++ "'. Please make sure that "
  ++ "it's not used by some other program".

(** [Table.execute]: the cursor that the engine returns is dropped, and the
    method falls off its end. *)
Definition Table_execute (self : Table) (sql : string)
    (parameters : option (list pyval)) : M retval :=
  fun w =>
    let w' d := mkWorld d (issued w ++ [(sql, or_empty parameters)]) in
    match cursor_execute env sql (or_empty parameters) (db w) with
    | (Return _, d) => (Return RNone, w' d)
    | (Raise ex, d) =>
        if is_OperationalError ex
        then (Raise (Exn SqlmapGenericException
                       (execute_errMsg (dbpath (parent self)) ex)), w' d)
        else (Raise ex, w' d)
    end.

(** Iterating [self.columns]. *)
Definition iter_columns (c : option (list pyval)) : result (list pyval) :=
  match c with
  | Some l => Return l
  | None => Raise (Exn TypeError "'NoneType' object is not iterable")
  end.

(** [len(self.columns)] *)
Definition len_columns (c : option (list pyval)) : result nat :=
  match c with
  | Some l => Return (List.length l)
  | None => Raise (Exn TypeError "object of type 'NoneType' has no len()")
  end.

Definition chars (s : string) : list pyval :=
  map (fun c => PStr (String c EmptyString)) (list_ascii_of_string s).

(** The target list [colname, coltype] of the for clause. *)
Definition unpack2 (e : pyval) : result (pyval * pyval) :=
  let of_items (l : list pyval) :=
    match l with
    | [a; b] => Return (a, b)
    | [] | [_] => Raise (Exn ValueError "not enough values to unpack (expected 2)")
    | _ => Raise (Exn ValueError "too many values to unpack (expected 2)")
    end in
  match e with
  | PTuple l | PList l => of_items l
  | PStr s => of_items (chars s)
  | PNone | PInt _ | PData _ =>
      Raise (Exn TypeError "cannot unpack non-iterable object")
  end.

Definition typed_column (e : pyval) : result string :=
  rbind (unpack2 e) (fun '(colname, coltype) =>
    Return (dq ++ py_str (unsafeSQLIdentificatorNaming env colname) ++ dq
            ++ " " ++ py_str coltype)).

Definition typeless_column (colname : pyval) : string :=
  dq ++ py_str (unsafeSQLIdentificatorNaming env colname) ++ dq.

(** The generator handed to [','.join], element by element. *)
Fixpoint typed_columns (l : list pyval) : result (list string) :=
  match l with
  | [] => Return []
  | e :: l' =>
      rbind (typed_column e) (fun s =>
      rbind (typed_columns l') (fun ss => Return (s :: ss)))
  end.

Definition drop_sql (self : Table) : string :=
  "DROP TABLE IF EXISTS " ++ dq ++ py_str (name self) ++ dq.

Definition create_sql (self : Table) (cols : list string) : string :=
  "CREATE TABLE " ++ dq ++ py_str (name self) ++ dq
  ++ " (" ++ join "," cols ++ ")".

Definition init_errMsg (path : string) (ex : exn) : string :=
  "problem occurred ('" ++ getSafeExString env ex (Some (UNICODE_ENCODING env))
  ++ "') while initializing the sqlite database "
  ++ "located at '" ++ path ++ "'".

(** [Table.__init__] *)
Definition Table_init (parent : Replication) (name : pyval)
    (columns : option (list pyval)) (create typeless : bool) : M Table :=
  let self := mkTable parent (unsafeSQLIdentificatorNaming env name) columns in
  if create then
    try_except
      (Table_execute self (drop_sql self) None ;;;
       (if negb typeless then
          cols <- lift (rbind (iter_columns columns) typed_columns) ;;
          Table_execute self (create_sql self cols) None
        else
          cols <- lift (rbind (iter_columns columns)
                          (fun l => Return (map typeless_column l))) ;;
          Table_execute self (create_sql self cols) None) ;;;
       ret self)
      is_Exception
      (fun ex => raise (Exn SqlmapGenericException
                          (init_errMsg (dbpath parent) ex)))
  else ret self.

Definition placeholders (n : nat) : string := join "," (repeat "?" n).

Definition insert_sql (self : Table) (n : nat) : string :=
  "INSERT INTO " ++ dq ++ py_str (name self) ++ dq
  ++ " VALUES (" ++ placeholders n ++ ")".

Definition insert_errMsg : string :=
  "wrong number of columns used in replicating insert".

(** [Table.insert] *)
Definition Table_insert (self : Table) (values : list pyval) : M retval :=
  n <- lift (len_columns (columns self)) ;;
  if Nat.eqb (List.length values) n then
    Table_execute self (insert_sql self (List.length values))
      (Some (safechardecode env values)) ;;;
    ret RNone
  else
    raise (Exn SqlmapValueException insert_errMsg).

Definition Table_beginTransaction (self : Table) : M retval :=
  Table_execute self "BEGIN TRANSACTION" None ;;; ret RNone.

Definition Table_endTransaction (self : Table) : M retval :=
  Table_execute self "END TRANSACTION" None ;;; ret RNone.

(** [if condition:] on [None] or a string. *)
Definition truthy (condition : option string) : bool :=
  match condition with
  | Some (String _ _) => true
  | _ => false
  end.

(** The field [{condition}]. *)
Definition fmt_condition (condition : option string) : string :=
  match condition with
  | Some c => c
  | None => "None"
  end.

Definition select_sql (self : Table) (condition : option string) : string :=
  let q := "SELECT * FROM " ++ py_str (name self) in
  if truthy condition then q ++ "WHERE " ++ fmt_condition condition else q.

(** [Table.select] *)
Definition Table_select (self : Table) (condition : option string) : M retval :=
  Table_execute self (select_sql self condition) None.

(** [Replication.createTable] *)
Definition createTable (self : Replication) (tblname : pyval)
    (columns : option (list pyval)) (typeless : bool) : M Table :=
  Table_init self tblname columns true typeless.

(** The column list of the CREATE statement, for either setting of
    [typeless]. *)
Definition column_list (typeless : bool) (columns : option (list pyval))
    : result (list string) :=
  if negb typeless then rbind (iter_columns columns) typed_columns
  else rbind (iter_columns columns) (fun l => Return (map typeless_column l)).

(** *** What the statements below speak of *)

(** The world [Table.execute] leaves: the engine ran the statement once. *)
Definition after_execute (sql : string) (parameters : option (list pyval))
    (w : World) : World :=
  mkWorld (snd (cursor_execute env sql (or_empty parameters) (db w)))
          (issued w ++ [(sql, or_empty parameters)]).

Definition init_failure {A} (path : string) (ex : exn) : result A :=
  Raise (Exn SqlmapGenericException (init_errMsg path ex)).

(** Columns on which building the CREATE text is a programming error:
    [None], or, for a typed table, an element that does not unpack into a
    name and a type. *)
Definition malformed (typeless : bool) (columns0 : option (list pyval)) : Prop :=
  columns0 = None
  \/ (typeless = false
      /\ exists l, columns0 = Some l
                   /\ Exists (fun e => forall p, unpack2 e <> Return p) l).

(** The engine's catalogue as a collaborator shows it: for a table name,
    the text that created the table and the rows it holds. *)
Definition catalogue_view : Type :=
  DB env -> string -> option (string * list (list pyval)).

(** The engine runs [sql] as a DROP of table [key]. *)
Definition engine_drops (table_of : catalogue_view) (key sql : string) : Prop :=
  forall d, exists c d',
    cursor_execute env sql [] d = (Return c, d') /\ table_of d' key = None.

(** The engine runs [sql] as the creation of table [key], empty. *)
Definition engine_creates (table_of : catalogue_view) (key sql : string) : Prop :=
  forall d, table_of d key = None ->
    exists c d',
      cursor_execute env sql [] d = (Return c, d')
      /\ table_of d' key = Some (sql, []).

End Replication.

Arguments mkWorld {env} db issued.
Arguments db {env} w.
Arguments issued {env} w.
Arguments RNone {env}.
Arguments RCursor {env} c.

(** Occurrences of a character in a text. *)
Fixpoint count_char (c : ascii) (s : string) : nat :=
  match s with
  | EmptyString => 0
  | String a s' => (if Ascii.eqb a c then 1 else 0) + count_char c s'
  end.

(** ** A small engine to run the model on

    [Mini] instantiates the collaborators with a toy in-memory engine that
    understands the statement shapes of this module and checks the number of
    bindings the way sqlite3 does.  It serves the examples below; no theorem
    about [Replication] depends on it. *)
Module Mini.

Definition row : Type := list pyval.

(** The catalogue: table name, the text that created it, its rows. *)
Definition catalogue : Type := list (string * (string * list row)).

Fixpoint lookup (n : string) (d : catalogue) : option (string * list row) :=
  match d with
  | [] => None
  | (k, v) :: d' => if String.eqb k n then Some v else lookup n d'
  end.

Fixpoint remove (n : string) (d : catalogue) : catalogue :=
  match d with
  | [] => []
  | (k, v) :: d' => if String.eqb k n then remove n d' else (k, v) :: remove n d'
  end.

Fixpoint add_row (n : string) (r : row) (d : catalogue) : catalogue :=
  match d with
  | [] => []
  | (k, (c, rs)) :: d' =>
      if String.eqb k n then (k, (c, (rs ++ [r])%list)) :: d'
      else (k, (c, rs)) :: add_row n r d'
  end.

Fixpoint strip_prefix (p s : string) : option string :=
  match p, s with
  | EmptyString, _ => Some s
  | String a p', String b s' =>
      if Ascii.eqb a b then strip_prefix p' s' else None
  | String _ _, EmptyString => None
  end.

Definition is_dq (c : ascii) : bool := Nat.eqb (nat_of_ascii c) 34.

Definition is_ident_char (c : ascii) : bool :=
  let n := nat_of_ascii c in
  (Nat.leb 48 n && Nat.leb n 57) || (Nat.leb 65 n && Nat.leb n 90)
  || (Nat.leb 97 n && Nat.leb n 122) || Nat.eqb n 95.

(** The text up to the closing double quote, and what follows it. *)
Fixpoint until_dq (s : string) : option (string * string) :=
  match s with
  | EmptyString => None
  | String c s' =>
      if is_dq c then Some (EmptyString, s')
      else match until_dq s' with
           | Some (a, r) => Some (String c a, r)
           | None => None
           end
  end.

Fixpoint ident_run (s : string) : string * string :=
  match s with
  | EmptyString => (EmptyString, EmptyString)
  | String c s' =>
      if is_ident_char c
      then let (a, r) := ident_run s' in (String c a, r)
      else (EmptyString, s)
  end.

(** The identifier a text starts with: quoted, or a run of word characters. *)
Definition read_ident (s : string) : option (string * string) :=
  match s with
  | EmptyString => None
  | String c s' =>
      if is_dq c then until_dq s'
      else match ident_run s with
           | (EmptyString, _) => None
           | p => Some p
           end
  end.

Definition syntax_error {A} : result A :=
  Raise (Exn OperationalError "syntax error").

Definition no_such_table {A} (n : string) : result A :=
  Raise (Exn OperationalError ("no such table: " ++ n)).

Definition run (sql : string) (params : list pyval) (d : catalogue)
    : result (list row) * catalogue :=
  match strip_prefix "DROP TABLE IF EXISTS " sql with
  | Some r =>
      match read_ident r with
      | Some (n, EmptyString) => (Return [], remove n d)
      | _ => (syntax_error, d)
      end
  | None =>
  match strip_prefix "CREATE TABLE " sql with
  | Some r =>
      match read_ident r with
      | Some (n, _) =>
          match lookup n d with
          | Some _ =>
              (Raise (Exn OperationalError ("table " ++ n ++ " already exists")), d)
          | None => (Return [], (n, (sql, [])) :: d)
          end
      | None => (syntax_error, d)
      end
  | None =>
  match strip_prefix "INSERT INTO " sql with
  | Some r =>
      match read_ident r with
      | Some (n, _) =>
          match lookup n d with
          | Some _ => (Return [], add_row n params d)
          | None => (no_such_table n, d)
          end
      | None => (syntax_error, d)
      end
  | None =>
  match strip_prefix "SELECT * FROM " sql with
  | Some r =>
      match read_ident r with
      | Some (n, EmptyString) =>
          match lookup n d with
          | Some (_, rows) => (Return rows, d)
          | None => (no_such_table n, d)
          end
      | _ => (syntax_error, d)
      end
  | None =>
      if String.eqb sql "BEGIN TRANSACTION" || String.eqb sql "END TRANSACTION"
      then (Return [], d)
      else (syntax_error, d)
  end end end end.

(** [cursor.execute]: the bindings are counted before the statement runs. *)
Definition execute (sql : string) (params : list pyval) (d : catalogue)
    : result (list row) * catalogue :=
  if Nat.eqb (count_char "?" sql) (List.length params) then run sql params d
  else (Raise (Exn ProgrammingError "Incorrect number of bindings supplied."), d).

Fixpoint last_char (s : string) : option ascii :=
  match s with
  | EmptyString => None
  | String c EmptyString => Some c
  | String _ s' => last_char s'
  end.

(** [sqlite3.connect]: a path that ends in a slash names a directory. *)
Definition connect (path : string) : result catalogue :=
  match last_char path with
  | Some "/"%char => Raise (Exn OperationalError "unable to open database file")
  | _ => Return []
  end.

Definition env : Collaborators := {|
  DB := catalogue;
  Cursor := list row;
  sqlite3_connect := connect;
  cursor_execute := execute;
  unsafeSQLIdentificatorNaming := fun v => v;
  getSafeExString := fun ex _ => exn_msg ex;
  UNICODE_ENCODING := "utf8";
  safechardecode := fun l => l;
  str_repr := fun s => "'" ++ s ++ "'"
|}.

(** The catalogue as the engine shows it. *)
Definition table_of (d : catalogue) (n : string) : option (string * list row) :=
  lookup n d.

Definition handle : Replication := mkReplication "/tmp/out.sqlite3".

Definition empty : World env := mkWorld (env := env) [] [].

Definition users : Table :=
  mkTable handle (PStr "users")
    (Some [PTuple [PStr "id"; PData INTEGER]; PTuple [PStr "name"; PData TEXT]]).

(** A table with a row in it. *)
Definition populated : World env :=
  snd (Table_insert env users [PInt 1; PStr "bob"]
         (snd (createTable env handle (PStr "users")
                 (columns users) false empty))).

Definition typed_cols : list string :=
  [dq ++ "id" ++ dq ++ " INTEGER"; dq ++ "name" ++ dq ++ " TEXT"].

Definition bare_cols : list string := [dq ++ "a" ++ dq; dq ++ "b" ++ dq].

(** A table whose name needs its quotes. *)
Definition spaced : Table :=
  mkTable handle (PStr "my table") (Some [PStr "k"]).

End Mini.

(** ** A stricter engine

    [Checked] is [Mini] with two refusals of the real library added: a path
    that holds a NUL character is turned down before the engine sees it, and
    a CREATE TABLE with nothing between its parentheses is a syntax error. *)
Module Checked.

Fixpoint has_nul (s : string) : bool :=
  match s with
  | EmptyString => false
  | String c s' => Nat.eqb (nat_of_ascii c) 0 || has_nul s'
  end.

Definition connect (path : string) : result Mini.catalogue :=
  if has_nul path then Raise (Exn ValueError "embedded null byte")
  else Mini.connect path.

Fixpoint ends_in (suffix s : string) : bool :=
  String.eqb s suffix
  || match s with
     | EmptyString => false
     | String _ s' => ends_in suffix s'
     end.

Definition execute (sql : string) (params : list pyval) (d : Mini.catalogue)
    : result (list Mini.row) * Mini.catalogue :=
  match Mini.strip_prefix "CREATE TABLE " sql with
  | Some _ =>
      if ends_in " ()" sql
      then (Raise (Exn OperationalError "near ): syntax error"), d)
      else Mini.execute sql params d
  | None => Mini.execute sql params d
  end.

Definition env : Collaborators := {|
  DB := Mini.catalogue;
  Cursor := list Mini.row;
  sqlite3_connect := connect;
  cursor_execute := execute;
  unsafeSQLIdentificatorNaming := fun v => v;
  getSafeExString := fun ex _ => exn_msg ex;
  UNICODE_ENCODING := "utf8";
  safechardecode := fun l => l;
  str_repr := fun s => "'" ++ s ++ "'"
|}.

(** A path with a NUL character in it. *)
Definition nul_path : string := "/tmp/a" ++ String (ascii_of_nat 0) "b".

Definition populated : World env :=
  mkWorld (env := env) (db Mini.populated) (issued Mini.populated).

End Checked.

(** ** How the engine reads an identifier

    [Sql] follows SQL's rules for the identifier that a table reference
    starts with: between double quotes anything goes and a doubled quote
    stands for one; without quotes it is a word of letters, digits,
    underscores and dollar signs that does not start with a digit and is
    not reserved. *)
Module Sql.

Definition is_dq (c : ascii) : bool := Nat.eqb (nat_of_ascii c) 34.

(** A character that may start a bare identifier: a letter, the underscore,
    or a character past the seven-bit range. *)
Definition ident_start (c : ascii) : bool :=
  let n := nat_of_ascii c in
  (Nat.leb 65 n && Nat.leb n 90) || (Nat.leb 97 n && Nat.leb n 122)
  || Nat.eqb n 95 || Nat.leb 128 n.

(** A character that may continue one: also a digit or the dollar sign. *)
Definition ident_char (c : ascii) : bool :=
  let n := nat_of_ascii c in
  ident_start c || (Nat.leb 48 n && Nat.leb n 57) || Nat.eqb n 36.

Fixpoint has_dq (s : string) : bool :=
  match s with
  | EmptyString => false
  | String c s' => is_dq c || has_dq s'
  end.

Definition starts_dq (s : string) : bool :=
  match s with
  | EmptyString => false
  | String c _ => is_dq c
  end.

(** The inside of a quoted identifier, read after its opening quote: it ends
    at the first double quote that is not doubled, and a doubled one stands
    for one double quote.  With it, what follows the closing quote. *)
Fixpoint quoted (s : string) : option (string * string) :=
  match s with
  | EmptyString => None
  | String c s' =>
      if is_dq c then
        match s' with
        | String c' s'' =>
            if is_dq c' then
              match quoted s'' with
              | Some (a, r) => Some (String c a, r)
              | None => None
              end
            else Some (EmptyString, s')
        | EmptyString => Some (EmptyString, EmptyString)
        end
      else
        match quoted s' with
        | Some (a, r) => Some (String c a, r)
        | None => None
        end
  end.

(** The longest run of identifier characters a text starts with. *)
Fixpoint word (s : string) : string :=
  match s with
  | EmptyString => EmptyString
  | String c s' => if ident_char c then String c (word s') else EmptyString
  end.

(** The identifier a table reference starts with, where [keyword] tells
    the reserved words: a quoted identifier, or a bare word that is not
    reserved. *)
Definition ident (keyword : string -> bool) (s : string) : option string :=
  match s with
  | EmptyString => None
  | String c s' =>
      if is_dq c then
        match quoted s' with
        | Some (a, _) => Some a
        | None => None
        end
      else if ident_start c then
        if keyword (word s) then None else Some (word s)
      else None
  end.

End Sql.

(** ** Facts about texts *)

Lemma append_assoc (a b c : string) : (a ++ b) ++ c = a ++ b ++ c.
Proof.
  induction a as [|x a IH]; simpl; [reflexivity | now rewrite IH].
Qed.

Lemma append_nil_r (a : string) : a ++ EmptyString = a.
Proof.
  induction a as [|x a IH]; simpl; [reflexivity | now rewrite IH].
Qed.

Lemma count_char_app (c : ascii) (a b : string) :
  count_char c (a ++ b) = count_char c a + count_char c b.
Proof.
  induction a as [|x a IH]; simpl; [reflexivity | rewrite IH; lia].
Qed.

Lemma placeholders_S (n : nat) :
  placeholders (S (S n)) = "?," ++ placeholders (S n).
Proof. reflexivity. Qed.

Lemma count_placeholders (n : nat) : count_char "?" (placeholders n) = n.
Proof.
  destruct n as [|n]; [reflexivity|].
  induction n as [|n IH]; [reflexivity|].
  rewrite placeholders_S, count_char_app, IH. reflexivity.
Qed.

(** No comma more than separates the placeholders. *)
Lemma count_commas (n : nat) : count_char "," (placeholders (S n)) = n.
Proof.
  induction n as [|n IH]; [reflexivity|].
  rewrite placeholders_S, count_char_app, IH. reflexivity.
Qed.

(** *** Reading identifiers *)

Lemma Sql_quoted_cons (c : ascii) (s : string) :
  Sql.is_dq c = false ->
  Sql.quoted (String c s)
  = match Sql.quoted s with
    | Some (a, r) => Some (String c a, r)
    | None => None
    end.
Proof. intros H. simpl. now rewrite H. Qed.

Lemma Sql_quoted_closed (n rest : string) :
  Sql.has_dq n = false -> Sql.starts_dq rest = false ->
  Sql.quoted (n ++ dq ++ rest) = Some (n, rest).
Proof.
  intros Hn Hrest. induction n as [|a n IH].
  - destruct rest as [|c rest]; [reflexivity|].
    simpl in Hrest. simpl.
    change (Sql.is_dq (ascii_of_nat 34)) with true. cbv iota.
    now rewrite Hrest.
  - simpl in Hn. apply orb_false_iff in Hn. destruct Hn as [Ha Hn].
    change (String a n ++ dq ++ rest) with (String a (n ++ dq ++ rest)).
    rewrite (Sql_quoted_cons a _ Ha). now rewrite (IH Hn).
Qed.

Lemma Sql_ident_quoted (kw : string -> bool) (n rest : string) :
  Sql.has_dq n = false -> Sql.starts_dq rest = false ->
  Sql.ident kw (dq ++ n ++ dq ++ rest) = Some n.
Proof.
  intros Hn Hrest.
  change (dq ++ n ++ dq ++ rest)
    with (String (ascii_of_nat 34) (n ++ dq ++ rest)).
  unfold Sql.ident.
  change (Sql.is_dq (ascii_of_nat 34)) with true. cbv iota.
  now rewrite (Sql_quoted_closed n rest Hn Hrest).
Qed.

Lemma Sql_word_prefix (n rest : string) :
  Sql.word (n ++ rest) = n -> Sql.word n = n.
Proof.
  induction n as [|a n IH]; [reflexivity|].
  simpl. destruct (Sql.ident_char a); [|discriminate].
  intros H. inversion H as [H']. rewrite H'. now rewrite (IH H').
Qed.

Lemma Sql_ident_bare (kw : string -> bool) (n rest : string) :
  Sql.has_dq n = false -> Sql.starts_dq rest = false ->
  Sql.ident kw (n ++ rest) = Some n -> Sql.ident kw n = Some n.
Proof.
  intros Hn Hrest. destruct n as [|a n].
  - simpl. destruct rest as [|c rest]; [discriminate|].
    simpl in Hrest. simpl. rewrite Hrest.
    destruct (Sql.ident_start c) eqn:Hc; [|discriminate].
    destruct (kw _); [discriminate|].
    unfold Sql.ident_char. rewrite Hc. discriminate.
  - simpl in Hn. apply orb_false_iff in Hn. destruct Hn as [Ha Hn].
    change (String a n ++ rest) with (String a (n ++ rest)).
    unfold Sql.ident. rewrite Ha.
    destruct (Sql.ident_start a); [|discriminate].
    change (String a (n ++ rest)) with (String a n ++ rest).
    destruct (kw (Sql.word (String a n ++ rest))) eqn:K; [discriminate|].
    intros H.
    assert (H' : Sql.word (String a n ++ rest) = String a n) by congruence.
    rewrite (Sql_word_prefix _ _ H'). rewrite H' in K. now rewrite K.
Qed.

Lemma Sql_quoted_length (s a r : string) :
  Sql.quoted s = Some (a, r) ->
  String.length a + String.length r + 1 <= String.length s.
Proof.
  remember (String.length s) as k eqn:Hk.
  revert s a r Hk. induction k as [k IH] using lt_wf_ind.
  intros [|c s'] a r Hk; [discriminate|].
  simpl in Hk. simpl.
  destruct (Sql.is_dq c).
  - destruct s' as [|c' s'']; [intros H; inversion H; subst; simpl in *; lia|].
    destruct (Sql.is_dq c').
    + destruct (Sql.quoted s'') as [[a' r']|] eqn:E; [|discriminate].
      intros H; inversion H; subst a r. simpl in Hk.
      specialize (IH (String.length s'') ltac:(lia) s'' a' r' eq_refl E).
      simpl. lia.
    + intros H; inversion H; subst. simpl in *. lia.
  - destruct (Sql.quoted s') as [[a' r']|] eqn:E; [|discriminate].
    intros H; inversion H; subst a r.
    specialize (IH (String.length s') ltac:(lia) s' a' r' eq_refl E).
    simpl. lia.
Qed.

Lemma length_append (a b : string) :
  String.length (a ++ b) = String.length a + String.length b.
Proof. induction a as [|x a IH]; simpl; [reflexivity | now rewrite IH]. Qed.

Lemma Sql_quoted_self (n r : string) :
  Sql.quoted (n ++ dq) = Some (n, r) -> Sql.has_dq n = false.
Proof.
  induction n as [|c n IH]; [reflexivity|].
  change (String c n ++ dq) with (String c (n ++ dq)).
  simpl. destruct (Sql.is_dq c) eqn:Hc.
  - destruct (n ++ dq) as [|c' s''] eqn:E; [discriminate|].
    destruct (Sql.is_dq c').
    + destruct (Sql.quoted s'') as [[a' r']|] eqn:Q; [|discriminate].
      intros H; inversion H; subst a' r'.
      apply Sql_quoted_length in Q.
      apply (f_equal String.length) in E. rewrite length_append in E.
      simpl in E. lia.
    + discriminate.
  - destruct (Sql.quoted (n ++ dq)) as [[a' r']|] eqn:Q; [|discriminate].
    intros H; inversion H; subst a' r'. simpl. exact (IH eq_refl).
Qed.

Lemma Sql_ident_quoted_self (kw : string -> bool) (n : string) :
  Sql.ident kw (dq ++ n ++ dq) = Some n -> Sql.has_dq n = false.
Proof.
  change (dq ++ n ++ dq) with (String (ascii_of_nat 34) (n ++ dq)).
  unfold Sql.ident.
  change (Sql.is_dq (ascii_of_nat 34)) with true. cbv iota.
  destruct (Sql.quoted (n ++ dq)) as [[a r]|] eqn:Q; [|discriminate].
  intros H; inversion H; subst a. exact (Sql_quoted_self n r Q).
Qed.

(** ** The behaviour of the methods *)

Section Behaviour.

Variable env : Collaborators.

Lemma or_empty_Some (l : list pyval) : or_empty (Some l) = l.
Proof. destruct l; reflexivity. Qed.

Lemma Table_execute_world self sql parameters w :
  snd (Table_execute env self sql parameters w) = after_execute env sql parameters w.
Proof.
  unfold Table_execute, after_execute.
  destruct (cursor_execute env sql (or_empty parameters) (db w)) as [[c|ex] d];
    simpl; [reflexivity|].
  destruct (is_OperationalError ex); reflexivity.
Qed.

Lemma Table_execute_result self sql parameters w :
  fst (Table_execute env self sql parameters w) =
  match fst (cursor_execute env sql (or_empty parameters) (db w)) with
  | Return _ => Return RNone
  | Raise ex =>
      if is_OperationalError ex
      then Raise (Exn SqlmapGenericException
                    (execute_errMsg env (dbpath (parent self)) ex))
      else Raise ex
  end.
Proof.
  unfold Table_execute.
  destruct (cursor_execute env sql (or_empty parameters) (db w)) as [[c|ex] d];
    simpl; [reflexivity|].
  destruct (is_OperationalError ex); reflexivity.
Qed.

Lemma Table_execute_eq self sql parameters w :
  Table_execute env self sql parameters w =
  (fst (Table_execute env self sql parameters w),
   after_execute env sql parameters w).
Proof.
  rewrite <- (Table_execute_world self). apply surjective_pairing.
Qed.

Lemma Table_execute_Return self sql parameters w v w' :
  Table_execute env self sql parameters w = (Return v, w') -> v = RNone.
Proof.
  unfold Table_execute.
  destruct (cursor_execute env sql (or_empty parameters) (db w)) as [[c|ex] d].
  - intros H; inversion H; reflexivity.
  - destruct (is_OperationalError ex); discriminate.
Qed.

(** *** insert *)

Lemma Table_insert_mismatch self C V w :
  columns self = Some C -> List.length V <> List.length C ->
  Table_insert env self V w =
  (Raise (Exn SqlmapValueException insert_errMsg), w).
Proof.
  intros HC Hlen. unfold Table_insert, bind, lift, raise.
  rewrite HC. simpl.
  apply Nat.eqb_neq in Hlen. rewrite Hlen. reflexivity.
Qed.

Lemma Table_insert_match self C V w :
  columns self = Some C -> List.length V = List.length C ->
  snd (Table_insert env self V w) =
  after_execute env (insert_sql env self (List.length V))
    (Some (safechardecode env V)) w.
Proof.
  intros HC Hlen. unfold Table_insert, bind, lift, ret.
  rewrite HC. simpl.
  apply Nat.eqb_eq in Hlen. rewrite Hlen.
  rewrite Table_execute_eq.
  destruct (fst (Table_execute env self _ _ w)); reflexivity.
Qed.

(** C1: a row whose length differs from the number of declared columns is
    refused with a SqlmapValueException whose message begins with the words
    wrong number of columns; the returned world is the one handed in, so
    the engine was not called and neither the database nor the log of
    statements changed. *)
Theorem insert_wrong_arity (self : Table) (C V : list pyval) (w : World env) :
  columns self = Some C ->
  List.length V <> List.length C ->
  Table_insert env self V w =
    (Raise (Exn SqlmapValueException
              "wrong number of columns used in replicating insert"), w)
  /\ String.prefix "wrong number of columns"
       "wrong number of columns used in replicating insert" = true.
Proof.
  intros HC Hlen. split.
  - exact (Table_insert_mismatch self C V w HC Hlen).
  - reflexivity.
Qed.

(** C2: a row of the declared length makes exactly one call to the engine:
    the INSERT text with one question mark per value, with the decoded
    values as its bindings.  The text depends on the table name and on the
    number of values only, so no value is spliced into it. *)
Theorem insert_parameterized (self : Table) (C V : list pyval) (w : World env) :
  columns self = Some C ->
  List.length V = List.length C ->
  let sql := "INSERT INTO " ++ dq ++ py_str env (name self) ++ dq
             ++ " VALUES (" ++ placeholders (List.length V) ++ ")" in
  let w' := snd (Table_insert env self V w) in
  issued w' = (issued w ++ [(sql, safechardecode env V)])%list
  /\ db w' = snd (cursor_execute env sql (safechardecode env V) (db w))
  /\ count_char "?" (placeholders (List.length V)) = List.length V
  /\ (forall V' w2, List.length V' = List.length V ->
        issued (snd (Table_insert env self V' w2))
        = (issued w2 ++ [(sql, safechardecode env V')])%list).
Proof.
  intros HC Hlen sql w'. subst w'.
  rewrite (Table_insert_match self C V w HC Hlen).
  unfold after_execute. rewrite or_empty_Some. simpl.
  repeat split.
  - apply count_placeholders.
  - intros V' w2 HV'.
    rewrite (Table_insert_match self C V' w2 HC) by congruence.
    unfold after_execute. rewrite or_empty_Some. simpl.
    unfold insert_sql. rewrite HV'. reflexivity.
Qed.

(** *** select *)

Lemma select_sql_condition self a c :
  select_sql env self (Some (String a c)) =
  "SELECT * FROM " ++ py_str env (name self) ++ "WHERE " ++ String a c.
Proof.
  unfold select_sql, truthy, fmt_condition.
  now rewrite append_assoc.
Qed.

Lemma select_sql_None self :
  select_sql env self None = "SELECT * FROM " ++ py_str env (name self).
Proof. reflexivity. Qed.

(** C3: with a non-empty condition the statement handed to the engine is
    the text SELECT * FROM, the name, then WHERE and the condition, nothing
    standing between the name and WHERE; with no condition it is SELECT *
    FROM and the name.  Either statement goes to the engine once, with no
    bindings. *)
Theorem select_text (self : Table) (c : string) (w : World env) :
  c <> EmptyString ->
  issued (snd (Table_select env self (Some c) w))
    = (issued w
       ++ [(("SELECT * FROM " ++ py_str env (name self) ++ "WHERE " ++ c)%string,
            [])])%list
  /\ issued (snd (Table_select env self None w))
    = (issued w
       ++ [(("SELECT * FROM " ++ py_str env (name self))%string, [])])%list.
Proof.
  intros Hc. unfold Table_select. rewrite !Table_execute_world.
  unfold after_execute. simpl. split.
  - destruct c as [|a c]; [congruence|].
    now rewrite select_sql_condition.
  - reflexivity.
Qed.

(** Whatever the engine yields, [select] hands back [None]. *)
Lemma Table_select_Return self condition w v w' :
  Table_select env self condition w = (Return v, w') -> v = RNone.
Proof. apply Table_execute_Return. Qed.

(** *** execute *)

Lemma Table_execute_Raise self sql parameters w ex d :
  cursor_execute env sql (or_empty parameters) (db w) = (Raise ex, d) ->
  Table_execute env self sql parameters w =
  ((if is_OperationalError ex
    then Raise (Exn SqlmapGenericException
                  (execute_errMsg env (dbpath (parent self)) ex))
    else Raise ex),
   mkWorld d (issued w ++ [(sql, or_empty parameters)])).
Proof.
  intros H. unfold Table_execute. rewrite H.
  destruct (is_OperationalError ex); reflexivity.
Qed.

(** C5, as the code has it: an sqlite3.OperationalError of the engine is
    caught in [execute] and raised again as a SqlmapGenericException whose
    message names the database path and advises that another program may be
    using the file; an exception of any other class leaves [execute] as the
    engine raised it.  In both cases the engine was called once, and the
    failure reaches the caller. *)
Theorem execute_wraps_operational (self : Table) (sql : string)
    (parameters : option (list pyval)) (w : World env) (ex : exn) (d : DB env) :
  cursor_execute env sql (or_empty parameters) (db w) = (Raise ex, d) ->
  Table_execute env self sql parameters w =
  ((if is_OperationalError ex
    then Raise (Exn SqlmapGenericException
           ("problem occurred ('"
            ++ getSafeExString env ex (Some (UNICODE_ENCODING env))
            ++ "') while accessing sqlite database located at '"
            ++ dbpath (parent self)
            ++ "'. Please make sure that it's not used by some other program"))
    else Raise ex),
   mkWorld d (issued w ++ [(sql, or_empty parameters)])).
Proof.
  intros H. rewrite (Table_execute_Raise self sql parameters w ex d H).
  unfold execute_errMsg. simpl. reflexivity.
Qed.

(** *** Replication.__init__ *)

Lemma Replication_init_Raise path ex :
  sqlite3_connect env path = Raise ex ->
  Replication_init env path =
  if is_OperationalError ex
  then Raise (Exn SqlmapConnectionException (connect_errMsg env path ex))
  else Raise ex.
Proof. intros H. unfold Replication_init. now rewrite H. Qed.

(** C6, as the code has it: when [sqlite3.connect] fails with an
    OperationalError, as it does for a path that cannot be opened, the
    constructor raises a SqlmapConnectionException whose message carries the
    path and the text of the engine's error; an exception of any other
    class leaves the constructor as it was raised. *)
Theorem Replication_connect_failure (path : string) (ex : exn) :
  sqlite3_connect env path = Raise ex ->
  Replication_init env path =
  if is_OperationalError ex
  then Raise (Exn SqlmapConnectionException
                ("error occurred while opening a replication file '" ++ path
                 ++ "' ('" ++ getSafeExString env ex None ++ "')"))
  else Raise ex.
Proof.
  intros H. rewrite (Replication_init_Raise path ex H).
  destruct (is_OperationalError ex); reflexivity.
Qed.

(** *** Table.__init__ *)

(** The constructor with [create] set, step by step. *)
Lemma Table_init_create parent0 name0 columns0 typeless w :
  let self := mkTable parent0 (unsafeSQLIdentificatorNaming env name0) columns0 in
  Table_init env parent0 name0 columns0 true typeless w =
  match Table_execute env self (drop_sql env self) None w with
  | (Raise ex, w1) => (init_failure env (dbpath parent0) ex, w1)
  | (Return _, w1) =>
      match column_list env typeless columns0 with
      | Raise ex => (init_failure env (dbpath parent0) ex, w1)
      | Return cols =>
          match Table_execute env self (create_sql env self cols) None w1 with
          | (Raise ex, w2) => (init_failure env (dbpath parent0) ex, w2)
          | (Return _, w2) => (Return self, w2)
          end
      end
  end.
Proof.
  intros self. unfold Table_init, try_except, bind, lift, ret, raise,
    column_list, is_Exception, init_failure. fold self.
  destruct (Table_execute env self (drop_sql env self) None w) as [[v|ex] w1];
    [|reflexivity].
  destruct typeless; simpl.
  - destruct (iter_columns columns0) as [l|ex]; simpl; [|reflexivity].
    destruct (Table_execute env self _ None w1) as [[v2|ex] w2]; reflexivity.
  - destruct (rbind (iter_columns columns0) (typed_columns env)) as [l|ex];
      simpl; [|reflexivity].
    destruct (Table_execute env self _ None w1) as [[v2|ex] w2]; reflexivity.
Qed.

(** With [create] set the constructor raises nothing but its own
    SqlmapGenericException. *)
Lemma Table_init_raises_generic parent0 name0 columns0 typeless w ex w' :
  Table_init env parent0 name0 columns0 true typeless w = (Raise ex, w') ->
  exists cause, ex = Exn SqlmapGenericException
                       (init_errMsg env (dbpath parent0) cause).
Proof.
  rewrite Table_init_create. unfold init_failure.
  destruct (Table_execute env _ _ None w) as [[v|e1] w1].
  - destruct (column_list env typeless columns0) as [cols|e2].
    + destruct (Table_execute env _ _ None w1) as [[v2|e3] w2];
        intros H; inversion H. now exists e3.
    + intros H; inversion H. now exists e2.
  - intros H; inversion H. now exists e1.
Qed.

Lemma typed_columns_pairs (pairs : list (pyval * pyval)) :
  typed_columns env (map (fun p => PTuple [fst p; snd p]) pairs) =
  Return (map (fun p =>
                 dq ++ py_str env (unsafeSQLIdentificatorNaming env (fst p))
                 ++ dq ++ " " ++ py_str env (snd p)) pairs).
Proof.
  induction pairs as [|[n t] pairs IH]; [reflexivity|].
  simpl. rewrite IH. reflexivity.
Qed.

(** An element that does not unpack into two makes the generator raise. *)
Lemma typed_columns_bad (l : list pyval) :
  Exists (fun e => forall p, unpack2 e <> Return p) l ->
  exists ex, typed_columns env l = Raise ex.
Proof.
  induction 1 as [e l Hbad | e l _ IH].
  - simpl. unfold typed_column.
    destruct (unpack2 e) as [p|ex] eqn:E.
    + now destruct (Hbad p).
    + simpl. now exists ex.
  - destruct IH as [ex IH]. simpl.
    destruct (typed_column env e) as [s|ex']; simpl.
    + rewrite IH. simpl. now exists ex.
    + now exists ex'.
Qed.

(** The calls the constructor makes: the DROP, then the CREATE when the
    DROP went through and the column list could be built. *)
Lemma Table_init_issued parent0 name0 columns0 typeless w :
  let self := mkTable parent0 (unsafeSQLIdentificatorNaming env name0) columns0 in
  issued (snd (Table_init env parent0 name0 columns0 true typeless w)) =
  (issued w ++ (drop_sql env self, []) ::
     match fst (cursor_execute env (drop_sql env self) [] (db w)),
           column_list env typeless columns0 with
     | Return _, Return cols => [(create_sql env self cols, [])]
     | _, _ => []
     end)%list.
Proof.
  intros self. rewrite Table_init_create. fold self.
  rewrite (Table_execute_eq self (drop_sql env self) None w).
  rewrite Table_execute_result. simpl or_empty.
  destruct (fst (cursor_execute env (drop_sql env self) [] (db w))) as [c|ex].
  - destruct (column_list env typeless columns0) as [cols|ex]; [|reflexivity].
    rewrite (Table_execute_eq self (create_sql env self cols) None).
    destruct (fst (Table_execute env self (create_sql env self cols) None _));
      simpl; now rewrite <- app_assoc.
  - destruct (is_OperationalError ex); reflexivity.
Qed.

(** C8: with [create] and [typeless] set, the column list of the CREATE
    TABLE text is the sanitized column names, each in double quotes, joined
    by commas, and nothing follows any name; with [typeless] unset each
    (name, type) pair gives the quoted sanitized name, a space, and the type
    as it prints.  The CREATE text goes to the engine when the DROP before
    it went through. *)
Theorem create_statement_columns (parent0 : Replication) (name0 : pyval)
    (w : World env) :
  let n := py_str env (unsafeSQLIdentificatorNaming env name0) in
  let drop := "DROP TABLE IF EXISTS " ++ dq ++ n ++ dq in
  let made (cols : list string) : list call :=
    match fst (cursor_execute env drop [] (db w)) with
    | Return _ =>
        [("CREATE TABLE " ++ dq ++ n ++ dq ++ " (" ++ join "," cols ++ ")", [])]
    | Raise _ => []
    end in
  (forall names : list pyval,
     issued (snd (Table_init env parent0 name0 (Some names) true true w))
     = (issued w ++ (drop, []) ::
          made (map (fun c =>
                  (dq ++ py_str env (unsafeSQLIdentificatorNaming env c) ++ dq)%string)
                  names))%list)
  /\
  (forall pairs : list (pyval * pyval),
     issued (snd (Table_init env parent0 name0
                    (Some (map (fun p => PTuple [fst p; snd p]) pairs))
                    true false w))
     = (issued w ++ (drop, []) ::
          made (map (fun p =>
                  (dq ++ py_str env (unsafeSQLIdentificatorNaming env (fst p))
                   ++ dq ++ " " ++ py_str env (snd p))%string)
                  pairs))%list).
Proof.
  intros n drop made. split.
  - intros names. rewrite Table_init_issued.
    change (column_list env true (Some names))
      with (Return (A := list string) (map (typeless_column env) names)).
    change (drop_sql env _) with drop. unfold made.
    destruct (fst (cursor_execute env drop [] (db w))); reflexivity.
  - intros pairs. rewrite Table_init_issued.
    change (column_list env false (Some ?l)) with (typed_columns env l).
    rewrite typed_columns_pairs.
    change (drop_sql env _) with drop. unfold made.
    destruct (fst (cursor_execute env drop [] (db w))); reflexivity.
Qed.

Lemma column_list_malformed typeless columns0 :
  malformed typeless columns0 ->
  exists ex, column_list env typeless columns0 = Raise ex.
Proof.
  intros [-> | [-> [l [-> Hbad]]]].
  - unfold column_list. destruct (negb typeless); simpl; eauto.
  - unfold column_list. simpl. now apply typed_columns_bad.
Qed.


(** *** Creating a table twice *)

Section Catalogue.

Variable table_of : catalogue_view env.

(** One call, from any world: whatever the table held, it is new after. *)
Lemma createTable_fresh self n C tl cols w :
  let t := mkTable self (unsafeSQLIdentificatorNaming env n) C in
  let key := py_str env (unsafeSQLIdentificatorNaming env n) in
  column_list env tl C = Return cols ->
  engine_drops env table_of key (drop_sql env t) ->
  engine_creates env table_of key (create_sql env t cols) ->
  exists w',
    createTable env self n C tl w = (Return t, w')
    /\ issued w'
       = (issued w ++ [(drop_sql env t, []); (create_sql env t cols, [])])%list
    /\ table_of (db w') key = Some (create_sql env t cols, []).
Proof.
  intros t key Hcols Hdrop Hcreate.
  unfold createTable. rewrite Table_init_create. fold t.
  unfold Table_execute. simpl or_empty.
  destruct (Hdrop (db w)) as (c & d1 & E1 & Hnone). rewrite E1, Hcols.
  simpl db. destruct (Hcreate d1 Hnone) as (c2 & d2 & E2 & Hsome). rewrite E2.
  eexists. split; [reflexivity|]. simpl. split; [|exact Hsome].
  now rewrite <- app_assoc.
Qed.

(** C7: two calls of [createTable] for the same name each send DROP TABLE
    IF EXISTS and then CREATE TABLE; on an engine that runs these two
    statements as a drop and a creation, the catalogue afterwards holds for
    that name the second CREATE text and no row.  The same holds when the
    second call starts from any other world, whatever was inserted since
    the first. *)
Theorem createTable_twice (self : Replication) (n : pyval)
    (C1 C2 : option (list pyval)) (tl1 tl2 : bool) (cols1 cols2 : list string)
    (w : World env) :
  let key := py_str env (unsafeSQLIdentificatorNaming env n) in
  let drop := "DROP TABLE IF EXISTS " ++ dq ++ key ++ dq in
  let create (cols : list string) :=
    "CREATE TABLE " ++ dq ++ key ++ dq ++ " (" ++ join "," cols ++ ")" in
  column_list env tl1 C1 = Return cols1 ->
  column_list env tl2 C2 = Return cols2 ->
  engine_drops env table_of key drop ->
  engine_creates env table_of key (create cols1) ->
  engine_creates env table_of key (create cols2) ->
  (exists t1 w1 t2 w2,
     createTable env self n C1 tl1 w = (Return t1, w1)
     /\ createTable env self n C2 tl2 w1 = (Return t2, w2)
     /\ issued w2
        = (issued w ++ [(drop, []); (create cols1, []);
                        (drop, []); (create cols2, [])])%list
     /\ table_of (db w2) key = Some (create cols2, []))
  /\ (forall wm, exists t2 w2,
        createTable env self n C2 tl2 wm = (Return t2, w2)
        /\ table_of (db w2) key = Some (create cols2, [])).
Proof.
  intros key drop create H1 H2 Hdrop Hc1 Hc2. split.
  - destruct (createTable_fresh self n C1 tl1 cols1 w H1 Hdrop Hc1)
      as (w1 & E1 & I1 & _).
    destruct (createTable_fresh self n C2 tl2 cols2 w1 H2 Hdrop Hc2)
      as (w2 & E2 & I2 & T2).
    do 4 eexists. split; [exact E1|]. split; [exact E2|]. split; [|exact T2].
    rewrite I2, I1, <- app_assoc. reflexivity.
  - intros wm.
    destruct (createTable_fresh self n C2 tl2 cols2 wm H2 Hdrop Hc2)
      as (w2 & E2 & _ & T2).
    do 2 eexists. split; [exact E2 | exact T2].
Qed.

End Catalogue.

(** *** Quoting of the table name *)

Section Quoting.

(** The reserved words of the engine. *)
Variable keyword : string -> bool.

(** C9: DROP, CREATE and INSERT refer to the table by its sanitized name
    in double quotes, SELECT by the bare name.  Take a name that needs its
    quotes to be read as an identifier: between quotes the engine reads the
    name, bare it does not.  Then the engine reads the name from the table
    reference of the first three statements, and does not read it from the
    table reference of the SELECT text, with or without a condition. *)
Theorem select_names_other_identifier (self : Table) :
  let n := py_str env (name self) in
  Sql.ident keyword (dq ++ n ++ dq) = Some n ->
  Sql.ident keyword n <> Some n ->
  (exists rest,
     drop_sql env self = "DROP TABLE IF EXISTS " ++ dq ++ n ++ dq ++ rest
     /\ Sql.ident keyword (dq ++ n ++ dq ++ rest) = Some n)
  /\ (forall cols, exists rest,
        create_sql env self cols = "CREATE TABLE " ++ dq ++ n ++ dq ++ rest
        /\ Sql.ident keyword (dq ++ n ++ dq ++ rest) = Some n)
  /\ (forall k, exists rest,
        insert_sql env self k = "INSERT INTO " ++ dq ++ n ++ dq ++ rest
        /\ Sql.ident keyword (dq ++ n ++ dq ++ rest) = Some n)
  /\ (forall condition, exists rest,
        select_sql env self condition = "SELECT * FROM " ++ n ++ rest
        /\ Sql.ident keyword (n ++ rest) <> Some n).
Proof.
  intros n Hquoted Hbare.
  pose proof (Sql_ident_quoted_self keyword n Hquoted) as Hn.
  repeat split.
  - exists EmptyString. split; [reflexivity|].
    now apply Sql_ident_quoted.
  - intros cols. eexists. split; [reflexivity|].
    now apply Sql_ident_quoted.
  - intros k. eexists. split; [reflexivity|].
    now apply Sql_ident_quoted.
  - intros [[|a c]|].
    + exists EmptyString. split; [now rewrite append_nil_r|].
      now rewrite append_nil_r.
    + eexists. split; [now rewrite select_sql_condition|].
      intros H. apply Hbare.
      exact (Sql_ident_bare keyword n ("WHERE " ++ String a c) Hn eq_refl H).
    + exists EmptyString. split; [now rewrite append_nil_r|].
      now rewrite append_nil_r.
Qed.

End Quoting.

End Behaviour.

(** ** The model at work on the small engine *)

Lemma Mini_lookup_remove (n : string) (d : Mini.catalogue) :
  Mini.lookup n (Mini.remove n d) = None.
Proof.
  induction d as [|[k v] d IH]; [reflexivity|].
  simpl. destruct (String.eqb k n) eqn:E; [exact IH|].
  simpl. now rewrite E.
Qed.

Lemma Mini_drops (key sql : string) :
  Mini.strip_prefix "DROP TABLE IF EXISTS " sql = Some (dq ++ key ++ dq) ->
  Mini.read_ident (dq ++ key ++ dq) = Some (key, EmptyString) ->
  count_char "?" sql = 0 ->
  engine_drops Mini.env Mini.table_of key sql.
Proof.
  intros Hp Hid Hq d. exists [], (Mini.remove key d).
  split; [|apply Mini_lookup_remove].
  change (Mini.execute sql [] d = (Return [], Mini.remove key d)).
  unfold Mini.execute, Mini.run. rewrite Hq, Hp, Hid. reflexivity.
Qed.

Lemma Mini_creates (key sql rest : string) :
  Mini.strip_prefix "DROP TABLE IF EXISTS " sql = None ->
  Mini.strip_prefix "CREATE TABLE " sql = Some (dq ++ key ++ dq ++ rest) ->
  Mini.read_ident (dq ++ key ++ dq ++ rest) = Some (key, rest) ->
  count_char "?" sql = 0 ->
  engine_creates Mini.env Mini.table_of key sql.
Proof.
  intros Hd Hp Hid Hq d Hnone. unfold Mini.table_of in Hnone. exists [], ((key, (sql, [])) :: d).
  split; [|unfold Mini.table_of; simpl; now rewrite String.eqb_refl].
  change (Mini.execute sql [] d = (Return [], (key, (sql, [])) :: d)).
  unfold Mini.execute, Mini.run. rewrite Hq, Hd, Hp, Hid, Hnone. reflexivity.
Qed.

(** C4, where the code departs from it: the engine yields the row for the
    SELECT, and [select] hands back [None], because [execute] ends without
    a return statement. *)
Theorem select_returns_None :
  fst (cursor_execute Mini.env "SELECT * FROM users" [] (db Mini.populated))
    = Return [[PInt 1; PStr "bob"]]
  /\ fst (Table_select Mini.env Mini.users None Mini.populated) = Return RNone
  /\ issued (snd (Table_select Mini.env Mini.users None Mini.populated))
     = (issued Mini.populated ++ [("SELECT * FROM users", [])])%list.
Proof. repeat split. Qed.

(** C5 as stated fails: sqlite3 raises ProgrammingError for a statement
    with a placeholder and no binding, and [execute] lets it through, so
    not every exception of the engine comes out as SqlmapGenericException. *)
Lemma execute_leaks_ProgrammingError :
  cursor_execute Mini.env "SELECT ?" [] (db Mini.empty)
    = (Raise (Exn ProgrammingError "Incorrect number of bindings supplied."), [])
  /\ fst (Table_execute Mini.env Mini.users "SELECT ?" None Mini.empty)
     = Raise (Exn ProgrammingError "Incorrect number of bindings supplied.")
  /\ ~ (forall (sql : string) (parameters : option (list pyval))
               (w : World Mini.env) (ex : exn) (d : DB Mini.env),
          cursor_execute Mini.env sql (or_empty parameters) (db w)
            = (Raise ex, d) ->
          exists msg,
            fst (Table_execute Mini.env Mini.users sql parameters w)
            = Raise (Exn SqlmapGenericException msg)).
Proof.
  split; [reflexivity|]. split; [reflexivity|].
  intros H.
  destruct (H "SELECT ?" None Mini.empty _ _ eq_refl) as [msg Hmsg].
  discriminate Hmsg.
Qed.

(** C6 as stated fails: for a path that holds a NUL character
    [sqlite3.connect] raises ValueError, which the constructor does not
    catch, so a path that cannot be opened does not always give a
    SqlmapConnectionException. *)
Lemma Replication_leaks_ValueError :
  sqlite3_connect Checked.env Checked.nul_path
    = Raise (Exn ValueError "embedded null byte")
  /\ Replication_init Checked.env Checked.nul_path
     = Raise (Exn ValueError "embedded null byte")
  /\ ~ (forall (path : string) (ex : exn),
          sqlite3_connect Checked.env path = Raise ex ->
          exists msg,
            Replication_init Checked.env path
            = Raise (Exn SqlmapConnectionException msg)).
Proof.
  split; [reflexivity|]. split; [reflexivity|].
  intros H.
  destruct (H Checked.nul_path _ eq_refl) as [msg Hmsg].
  discriminate Hmsg.
Qed.

(** *** The theorems at concrete inputs *)

Lemma insert_wrong_arity_witness :
  (columns Mini.users
     = Some [PTuple [PStr "id"; PData INTEGER]; PTuple [PStr "name"; PData TEXT]]
   /\ List.length [PInt 1] <> 2)
  /\ Table_insert Mini.env Mini.users [PInt 1] Mini.populated
     = (Raise (Exn SqlmapValueException
                 "wrong number of columns used in replicating insert"),
        Mini.populated).
Proof.
  split; [split; [reflexivity | discriminate]|].
  exact (proj1 (insert_wrong_arity Mini.env Mini.users _ [PInt 1] Mini.populated
                  eq_refl ltac:(discriminate))).
Defined.

Lemma insert_parameterized_witness :
  List.length [PInt 1; PStr "bob"] = 2
  /\ issued (snd (Table_insert Mini.env Mini.users [PInt 1; PStr "bob"] Mini.empty))
     = [("INSERT INTO " ++ dq ++ "users" ++ dq ++ " VALUES (?,?)",
         [PInt 1; PStr "bob"])].
Proof.
  split; [reflexivity|].
  exact (proj1 (insert_parameterized Mini.env Mini.users _ [PInt 1; PStr "bob"]
                  Mini.empty eq_refl eq_refl)).
Defined.

Lemma select_text_witness :
  "id=1" <> EmptyString
  /\ issued (snd (Table_select Mini.env Mini.users (Some "id=1") Mini.empty))
     = [("SELECT * FROM usersWHERE id=1", [])].
Proof.
  split; [discriminate|].
  exact (proj1 (select_text Mini.env Mini.users "id=1" Mini.empty
                  ltac:(discriminate))).
Defined.

Lemma execute_wraps_operational_witness :
  cursor_execute Mini.env "SELECT * FROM missing" [] (db Mini.empty)
    = (Raise (Exn OperationalError "no such table: missing"), [])
  /\ Table_execute Mini.env Mini.users "SELECT * FROM missing" None Mini.empty
     = (Raise (Exn SqlmapGenericException
          "problem occurred ('no such table: missing') while accessing sqlite database located at '/tmp/out.sqlite3'. Please make sure that it's not used by some other program"),
        mkWorld (env := Mini.env) [] [("SELECT * FROM missing", [])]).
Proof.
  split; [reflexivity|].
  exact (execute_wraps_operational Mini.env Mini.users "SELECT * FROM missing"
           None Mini.empty _ _ eq_refl).
Defined.

Lemma Replication_connect_failure_witness :
  sqlite3_connect Mini.env "/tmp/"
    = Raise (Exn OperationalError "unable to open database file")
  /\ Replication_init Mini.env "/tmp/"
     = Raise (Exn SqlmapConnectionException
         "error occurred while opening a replication file '/tmp/' ('unable to open database file')").
Proof.
  split; [reflexivity|].
  exact (Replication_connect_failure Mini.env "/tmp/" _ eq_refl).
Defined.

Lemma createTable_twice_witness :
  (column_list Mini.env false (columns Mini.users)
     = Return Mini.typed_cols
   /\ column_list Mini.env true (Some [PStr "a"; PStr "b"])
      = Return Mini.bare_cols
   /\ engine_drops Mini.env Mini.table_of "users" (drop_sql Mini.env Mini.users))
  /\ exists t1 w1 t2 w2,
       createTable Mini.env Mini.handle (PStr "users") (columns Mini.users)
         false Mini.populated = (Return t1, w1)
       /\ createTable Mini.env Mini.handle (PStr "users")
            (Some [PStr "a"; PStr "b"]) true w1 = (Return t2, w2)
       /\ issued w2
          = (issued Mini.populated
             ++ [(drop_sql Mini.env Mini.users, []);
                 (create_sql Mini.env Mini.users Mini.typed_cols, []);
                 (drop_sql Mini.env Mini.users, []);
                 (create_sql Mini.env Mini.users Mini.bare_cols,
                  [])])%list
       /\ Mini.table_of (db w2) "users"
          = Some (create_sql Mini.env Mini.users Mini.bare_cols,
                  []).
Proof.
  assert (Hdrop : engine_drops Mini.env Mini.table_of "users"
                    (drop_sql Mini.env Mini.users))
    by (apply Mini_drops; reflexivity).
  assert (Hcreate : forall cols, count_char "?" (join "," cols) = 0 ->
            engine_creates Mini.env Mini.table_of "users"
              (create_sql Mini.env Mini.users cols)).
  { intros cols Hcols.
    apply (Mini_creates "users" _ (" (" ++ join "," cols ++ ")"));
      try reflexivity.
    unfold create_sql. rewrite !count_char_app, Hcols. reflexivity. }
  split; [split; [reflexivity | split; [reflexivity | exact Hdrop]]|].
  exact (proj1 (createTable_twice Mini.env Mini.table_of Mini.handle
                  (PStr "users") (columns Mini.users)
                  (Some [PStr "a"; PStr "b"]) false true _ _ Mini.populated
                  eq_refl eq_refl Hdrop
                  (Hcreate Mini.typed_cols eq_refl) (Hcreate Mini.bare_cols eq_refl))).
Defined.

Lemma select_names_other_identifier_witness :
  (Sql.ident (fun _ => false) (dq ++ "my table" ++ dq) = Some "my table"
   /\ Sql.ident (fun _ => false) "my table" <> Some "my table")
  /\ (exists rest,
        select_sql Mini.env Mini.spaced (Some "k=1")
          = "SELECT * FROM " ++ "my table" ++ rest
        /\ Sql.ident (fun _ => false) ("my table" ++ rest) <> Some "my table")
  /\ (exists rest,
        insert_sql Mini.env Mini.spaced 1
          = "INSERT INTO " ++ dq ++ "my table" ++ dq ++ rest
        /\ Sql.ident (fun _ => false) (dq ++ "my table" ++ dq ++ rest)
           = Some "my table").
Proof.
  split; [split; [reflexivity | discriminate]|].
  pose proof (select_names_other_identifier Mini.env (fun _ => false)
                Mini.spaced eq_refl ltac:(discriminate))
    as (_ & _ & Hins & Hsel).
  split; [exact (Hsel (Some "k=1")) | exact (Hins 1)].
Defined.


(** *** Runs *)

Example run_createTable_typed :
  issued (snd (createTable Mini.env Mini.handle (PStr "users")
                 (Some [PTuple [PStr "id"; PData INTEGER];
                        PTuple [PStr "name"; PStr "TEXT"]])
                 false Mini.empty))
  = [("DROP TABLE IF EXISTS " ++ dq ++ "users" ++ dq, []);
     ("CREATE TABLE " ++ dq ++ "users" ++ dq ++ " ("
      ++ dq ++ "id" ++ dq ++ " INTEGER," ++ dq ++ "name" ++ dq ++ " TEXT)", [])].
Proof. reflexivity. Qed.

Example run_createTable_typeless :
  issued (snd (createTable Mini.env Mini.handle (PStr "users")
                 (Some [PStr "id"; PStr "name"]) true Mini.empty))
  = [("DROP TABLE IF EXISTS " ++ dq ++ "users" ++ dq, []);
     ("CREATE TABLE " ++ dq ++ "users" ++ dq ++ " ("
      ++ dq ++ "id" ++ dq ++ "," ++ dq ++ "name" ++ dq ++ ")", [])].
Proof. reflexivity. Qed.

(** A one-element tuple where a pair is expected. *)
Example run_createTable_short_tuple :
  createTable Mini.env Mini.handle (PStr "users")
    (Some [PTuple [PStr "id"; PData INTEGER]; PTuple [PStr "name"]])
    false Mini.empty
  = (Raise (Exn SqlmapGenericException
       "problem occurred ('not enough values to unpack (expected 2)') while initializing the sqlite database located at '/tmp/out.sqlite3'"),
     mkWorld (env := Mini.env) []
       [("DROP TABLE IF EXISTS " ++ dq ++ "users" ++ dq, [])]).
Proof. reflexivity. Qed.

(** A string of two characters unpacks like a pair. *)
Example run_createTable_two_chars :
  issued (snd (createTable Mini.env Mini.handle (PStr "t") (Some [PStr "ab"])
                 false Mini.empty))
  = [("DROP TABLE IF EXISTS " ++ dq ++ "t" ++ dq, []);
     ("CREATE TABLE " ++ dq ++ "t" ++ dq ++ " (" ++ dq ++ "a" ++ dq ++ " b)", [])].
Proof. reflexivity. Qed.

(** The row inserted is the row the engine holds. *)
Example run_insert :
  Mini.table_of (db Mini.populated) "users"
  = Some ("CREATE TABLE " ++ dq ++ "users" ++ dq ++ " ("
          ++ dq ++ "id" ++ dq ++ " INTEGER," ++ dq ++ "name" ++ dq ++ " TEXT)",
          [[PInt 1; PStr "bob"]]).
Proof. reflexivity. Qed.

(** An exception of another class passes [execute] as it is. *)
Example run_execute_binding_mismatch :
  Table_execute Mini.env Mini.users "SELECT ?" None Mini.empty
  = (Raise (Exn ProgrammingError "Incorrect number of bindings supplied."),
     mkWorld (env := Mini.env) [] [("SELECT ?", [])]).
Proof. reflexivity. Qed.

(** ** Further behaviour of the methods *)

Section Further.

Variable env : Collaborators.

Lemma Table_insert_execute self C V w :
  columns self = Some C -> List.length V = List.length C ->
  Table_insert env self V w =
  Table_execute env self (insert_sql env self (List.length V))
    (Some (safechardecode env V)) w.
Proof.
  intros HC Hlen. unfold Table_insert, bind, lift, ret.
  rewrite HC. simpl. apply Nat.eqb_eq in Hlen. rewrite Hlen.
  destruct (Table_execute env self _ _ w) as [[v|ex] w'] eqn:E; [|reflexivity].
  now rewrite (Table_execute_Return env _ _ _ _ _ _ E).
Qed.

Lemma Table_beginTransaction_execute self w :
  Table_beginTransaction env self w =
  Table_execute env self "BEGIN TRANSACTION" None w.
Proof.
  unfold Table_beginTransaction, bind, ret.
  destruct (Table_execute env self _ _ w) as [[v|ex] w'] eqn:E; [|reflexivity].
  now rewrite (Table_execute_Return env _ _ _ _ _ _ E).
Qed.

Lemma Table_endTransaction_execute self w :
  Table_endTransaction env self w =
  Table_execute env self "END TRANSACTION" None w.
Proof.
  unfold Table_endTransaction, bind, ret.
  destruct (Table_execute env self _ _ w) as [[v|ex] w'] eqn:E; [|reflexivity].
  now rewrite (Table_execute_Return env _ _ _ _ _ _ E).
Qed.

(** X1: for a row of the declared length, [insert] is [execute] of the
    INSERT text with the decoded values: same result, same world.  So an
    OperationalError of the engine comes out as SqlmapGenericException, any
    other exception as it is, and on success [None] is returned. *)
Theorem insert_is_execute (self : Table) (C V : list pyval) (w : World env) :
  columns self = Some C ->
  List.length V = List.length C ->
  Table_insert env self V w =
  Table_execute env self
    ("INSERT INTO " ++ dq ++ py_str env (name self) ++ dq
     ++ " VALUES (" ++ placeholders (List.length V) ++ ")")
    (Some (safechardecode env V)) w.
Proof. exact (Table_insert_execute self C V w). Qed.

(** X2: a table handle made with [create] unset and no columns reaches the
    engine neither when it is made nor when a row is inserted: [insert]
    fails on [len(self.columns)] with a TypeError, which is not the
    SqlmapValueException of a wrong row length. *)
Theorem insert_without_columns (parent0 : Replication) (name0 : pyval)
    (typeless : bool) (V : list pyval) (w : World env) :
  bind env (Table_init env parent0 name0 None false typeless)
       (fun t => Table_insert env t V) w
  = (Raise (Exn TypeError "object of type 'NoneType' has no len()"), w).
Proof. reflexivity. Qed.

(** X3: an empty condition string counts as no condition: the statement,
    the result and the world are those of [select()]. *)
Theorem select_empty_condition (self : Table) (w : World env) :
  Table_select env self (Some EmptyString) w = Table_select env self None w
  /\ issued (snd (Table_select env self (Some EmptyString) w))
     = (issued w
        ++ [(("SELECT * FROM " ++ py_str env (name self))%string, [])])%list.
Proof.
  split; [reflexivity|].
  unfold Table_select. now rewrite Table_execute_world.
Qed.

(** X4: when [beginTransaction(); insert(V); endTransaction()] runs to its
    end, the row had the declared length, [None] comes back, and the engine
    was sent BEGIN TRANSACTION, the INSERT and END TRANSACTION, in this
    order and nothing else. *)
Theorem bracket_completed (self : Table) (C V : list pyval)
    (w w' : World env) (v : retval env) :
  columns self = Some C ->
  bind env (Table_beginTransaction env self)
    (fun _ => bind env (Table_insert env self V)
       (fun _ => Table_endTransaction env self)) w = (Return v, w') ->
  List.length V = List.length C
  /\ v = RNone
  /\ issued w'
     = (issued w
        ++ [("BEGIN TRANSACTION", []);
            (insert_sql env self (List.length V), safechardecode env V);
            ("END TRANSACTION", [])])%list.
Proof.
  intros HC. unfold bind.
  rewrite Table_beginTransaction_execute.
  destruct (Table_execute env self "BEGIN TRANSACTION" None w)
    as [[v0|e0] w1] eqn:E0; [|discriminate].
  destruct (Nat.eq_dec (List.length V) (List.length C)) as [Hlen|Hlen].
  - rewrite (Table_insert_execute self C V w1 HC Hlen).
    destruct (Table_execute env self (insert_sql env self _) _ w1)
      as [[v1|e1] w2] eqn:E1; [|discriminate].
    rewrite Table_endTransaction_execute.
    destruct (Table_execute env self "END TRANSACTION" None w2)
      as [[v2|e2] w3] eqn:E2; [|discriminate].
    intros H; inversion H; subst v w3. clear H.
    split; [exact Hlen|]. split; [exact (Table_execute_Return env _ _ _ _ _ _ E2)|].
    apply (f_equal snd) in E0, E1, E2.
    rewrite Table_execute_world in E0, E1, E2. simpl in E0, E1, E2.
    subst w' w2 w1. unfold after_execute. rewrite or_empty_Some. simpl.
    now rewrite <- !app_assoc.
  - rewrite (Table_insert_mismatch env self C V w1 HC Hlen). discriminate.
Qed.

(** X5: a row of the wrong length inside the bracket ends it: the sequence
    raises, BEGIN TRANSACTION is the only statement sent, END TRANSACTION
    is not, and when the engine took the BEGIN the exception is the
    SqlmapValueException of [insert]. *)
Theorem bracket_bad_row (self : Table) (C V : list pyval) (w : World env) :
  columns self = Some C ->
  List.length V <> List.length C ->
  let r := bind env (Table_beginTransaction env self)
             (fun _ => bind env (Table_insert env self V)
                (fun _ => Table_endTransaction env self)) w in
  (exists ex, fst r = Raise ex)
  /\ issued (snd r) = (issued w ++ [("BEGIN TRANSACTION", [])])%list
  /\ db (snd r) = snd (cursor_execute env "BEGIN TRANSACTION" [] (db w))
  /\ (forall c, fst (cursor_execute env "BEGIN TRANSACTION" [] (db w)) = Return c ->
        fst r = Raise (Exn SqlmapValueException
                         "wrong number of columns used in replicating insert")).
Proof.
  intros HC Hlen r. subst r. unfold bind.
  rewrite Table_beginTransaction_execute.
  rewrite (Table_execute_eq env self "BEGIN TRANSACTION" None w).
  rewrite Table_execute_result. simpl or_empty.
  destruct (fst (cursor_execute env "BEGIN TRANSACTION" [] (db w))) as [c|ex].
  - rewrite (Table_insert_mismatch env self C V _ HC Hlen). simpl.
    repeat split; eauto.
  - destruct (is_OperationalError ex); simpl; repeat split; eauto;
      intros c Hc; discriminate Hc.
Qed.

(** X6: an exception of [sqlite3.connect] that is not an OperationalError
    leaves [Replication.__init__] as it was raised; no
    SqlmapConnectionException is made of it. *)
Theorem Replication_other_errors_escape (path : string) (ex : exn) :
  sqlite3_connect env path = Raise ex ->
  exn_cls ex <> OperationalError ->
  Replication_init env path = Raise ex.
Proof.
  intros H Hc. unfold Replication_init. rewrite H.
  unfold is_OperationalError. destruct (exn_cls ex); congruence.
Qed.

(** X7: creation that fails on its columns has already dropped the table:
    on an engine that runs the DROP text as a drop, [createTable] with
    malformed columns raises SqlmapGenericException and the catalogue no
    longer holds the table, whatever it held before. *)
Theorem createTable_destroys_on_failure (table_of : catalogue_view env)
    (self : Replication) (n : pyval) (C : option (list pyval)) (tl : bool)
    (w : World env) :
  let key := py_str env (unsafeSQLIdentificatorNaming env n) in
  malformed tl C ->
  engine_drops env table_of key ("DROP TABLE IF EXISTS " ++ dq ++ key ++ dq) ->
  exists cause w',
    createTable env self n C tl w
    = (Raise (Exn SqlmapGenericException
                (init_errMsg env (dbpath self) cause)), w')
    /\ table_of (db w') key = None.
Proof.
  intros key Hbad Hdrop. unfold createTable. rewrite Table_init_create.
  destruct (column_list_malformed env _ _ Hbad) as [ex Hex]. rewrite Hex.
  unfold Table_execute. simpl or_empty.
  destruct (Hdrop (db w)) as (c & d1 & E & Hnone).
  change (drop_sql env _) with ("DROP TABLE IF EXISTS " ++ dq ++ key ++ dq).
  rewrite E. exists ex. eexists. split; [reflexivity | exact Hnone].
Qed.

(** X8: when the engine raises on the DROP, the constructor raises
    SqlmapGenericException and sends no CREATE.  An OperationalError has by
    then been wrapped once by [execute], so the constructor's message is
    built from that SqlmapGenericException and not from the engine's
    exception; an exception of another class is wrapped directly. *)
Theorem Table_init_drop_fails (parent0 : Replication) (name0 : pyval)
    (columns0 : option (list pyval)) (typeless : bool) (w : World env)
    (ex : exn) (d : DB env) :
  let key := py_str env (unsafeSQLIdentificatorNaming env name0) in
  let drop := "DROP TABLE IF EXISTS " ++ dq ++ key ++ dq in
  cursor_execute env drop [] (db w) = (Raise ex, d) ->
  Table_init env parent0 name0 columns0 true typeless w
  = (Raise (Exn SqlmapGenericException
       (init_errMsg env (dbpath parent0)
          (if is_OperationalError ex
           then Exn SqlmapGenericException
                  (execute_errMsg env (dbpath parent0) ex)
           else ex))),
     mkWorld d (issued w ++ [(drop, [])])).
Proof.
  intros key drop H. rewrite Table_init_create.
  change (drop_sql env _) with drop.
  rewrite (Table_execute_Raise env _ drop None w ex d H).
  destruct (is_OperationalError ex); reflexivity.
Qed.

(** X9: when the DROP went through and the engine raises on the CREATE,
    the constructor raises SqlmapGenericException after both statements
    were sent, with the same wrapping as for the DROP. *)
Theorem Table_init_create_fails (parent0 : Replication) (name0 : pyval)
    (columns0 : option (list pyval)) (typeless : bool) (w : World env)
    (cols : list string) (c : Cursor env) (d1 d2 : DB env) (ex : exn) :
  let key := py_str env (unsafeSQLIdentificatorNaming env name0) in
  let drop := "DROP TABLE IF EXISTS " ++ dq ++ key ++ dq in
  let create :=
    "CREATE TABLE " ++ dq ++ key ++ dq ++ " (" ++ join "," cols ++ ")" in
  cursor_execute env drop [] (db w) = (Return c, d1) ->
  column_list env typeless columns0 = Return cols ->
  cursor_execute env create [] d1 = (Raise ex, d2) ->
  Table_init env parent0 name0 columns0 true typeless w
  = (Raise (Exn SqlmapGenericException
       (init_errMsg env (dbpath parent0)
          (if is_OperationalError ex
           then Exn SqlmapGenericException
                  (execute_errMsg env (dbpath parent0) ex)
           else ex))),
     mkWorld d2 (issued w ++ [(drop, []); (create, [])])).
Proof.
  intros key drop create H1 Hcols H2. rewrite Table_init_create.
  change (drop_sql env _) with drop.
  unfold Table_execute at 1. simpl or_empty. rewrite H1, Hcols.
  change (create_sql env _ cols) with create.
  rewrite (Table_execute_Raise env _ create None (mkWorld d1 _) ex d2 H2).
  simpl.
  rewrite <- app_assoc.
  destruct (is_OperationalError ex); reflexivity.
Qed.

(** X10: when the engine takes the DROP and the CREATE, [createTable]
    returns a handle with the parent it was called on, the sanitized name
    and the columns as they were passed; these two statements are all that
    was sent. *)
Theorem createTable_returns_handle (self : Replication) (n : pyval)
    (C : option (list pyval)) (tl : bool) (w : World env)
    (cols : list string) (c1 c2 : Cursor env) (d1 d2 : DB env) :
  let key := py_str env (unsafeSQLIdentificatorNaming env n) in
  let drop := "DROP TABLE IF EXISTS " ++ dq ++ key ++ dq in
  let create :=
    "CREATE TABLE " ++ dq ++ key ++ dq ++ " (" ++ join "," cols ++ ")" in
  cursor_execute env drop [] (db w) = (Return c1, d1) ->
  column_list env tl C = Return cols ->
  cursor_execute env create [] d1 = (Return c2, d2) ->
  createTable env self n C tl w
  = (Return (mkTable self (unsafeSQLIdentificatorNaming env n) C),
     mkWorld d2 (issued w ++ [(drop, []); (create, [])])).
Proof.
  intros key drop create H1 Hcols H2. unfold createTable.
  rewrite Table_init_create. change (drop_sql env _) with drop.
  unfold Table_execute at 1. simpl or_empty. rewrite H1, Hcols.
  change (create_sql env _ cols) with create.
  unfold Table_execute. simpl or_empty. simpl db. rewrite H2. simpl.
  now rewrite <- app_assoc.
Qed.




Lemma unpack2_PStr_length (s : string) (p : pyval * pyval) :
  unpack2 (PStr s) = Return p -> String.length s = 2.
Proof.
  destruct s as [|a [|b [|c s]]]; simpl; intros H;
    try discriminate H; reflexivity.
Qed.

Lemma typed_columns_two_chars (two : list (ascii * ascii)) :
  typed_columns env
    (map (fun p => PStr (String (fst p) (String (snd p) EmptyString))) two)
  = Return
      (map (fun p =>
              dq ++ py_str env (unsafeSQLIdentificatorNaming env
                                  (PStr (String (fst p) EmptyString)))
              ++ dq ++ " " ++ String (snd p) EmptyString) two).
Proof.
  induction two as [|[a b] two IH]; [reflexivity|].
  simpl. rewrite IH. reflexivity.
Qed.

Lemma Table_init_column_error parent0 name0 columns0 typeless w ex :
  column_list env typeless columns0 = Raise ex ->
  let self := mkTable parent0 (unsafeSQLIdentificatorNaming env name0) columns0 in
  exists cause w',
    Table_init env parent0 name0 columns0 true typeless w
    = (Raise (Exn SqlmapGenericException
                (init_errMsg env (dbpath parent0) cause)), w')
    /\ issued w' = (issued w ++ [(drop_sql env self, [])])%list.
Proof.
  intros Hex self. rewrite Table_init_create. fold self. rewrite Hex.
  rewrite (Table_execute_eq env self (drop_sql env self) None w).
  destruct (fst (Table_execute env self (drop_sql env self) None w)) as [v|e1].
  - exists ex. eexists. split; reflexivity.
  - exists e1. eexists. split; reflexivity.
Qed.

(** X12: bare column names passed to a typed table are unpacked character
    by character.  A name that is not two characters long makes the
    constructor raise SqlmapGenericException after the DROP; names of two
    characters are taken without complaint, the first character as the
    column name and the second as its type. *)
Theorem bare_names_in_typed_table (parent0 : Replication) (name0 : pyval)
    (w : World env) :
  let key := py_str env (unsafeSQLIdentificatorNaming env name0) in
  let drop := "DROP TABLE IF EXISTS " ++ dq ++ key ++ dq in
  (forall names : list string,
     Exists (fun s => String.length s <> 2) names ->
     exists cause w',
       Table_init env parent0 name0 (Some (map PStr names)) true false w
       = (Raise (Exn SqlmapGenericException
                   (init_errMsg env (dbpath parent0) cause)), w')
       /\ issued w' = (issued w ++ [(drop, [])])%list)
  /\
  (forall two : list (ascii * ascii),
     issued (snd (Table_init env parent0 name0
                    (Some (map (fun p =>
                             PStr (String (fst p) (String (snd p) EmptyString)))
                             two))
                    true false w))
     = (issued w ++ (drop, []) ::
          match fst (cursor_execute env drop [] (db w)) with
          | Return _ =>
              [(("CREATE TABLE " ++ dq ++ key ++ dq ++ " ("
                 ++ join ","
                      (map (fun p =>
                              dq ++ py_str env
                                      (unsafeSQLIdentificatorNaming env
                                         (PStr (String (fst p) EmptyString)))
                              ++ dq ++ " " ++ String (snd p) EmptyString) two)
                 ++ ")")%string, [])]
          | Raise _ => []
          end)%list).
Proof.
  intros key drop. split.
  - intros names Hbad.
    assert (Hm : malformed false (Some (map PStr names))).
    { right. split; [reflexivity|]. eexists. split; [reflexivity|].
      apply Exists_exists in Hbad. destruct Hbad as (s & Hin & Hlen).
      apply Exists_exists. exists (PStr s). split.
      - now apply in_map.
      - intros p Hp. apply Hlen. exact (unpack2_PStr_length s p Hp). }
    destruct (column_list_malformed env _ _ Hm) as [ex Hex].
    exact (Table_init_column_error parent0 name0 _ false w ex Hex).
  - intros two. rewrite Table_init_issued.
    change (column_list env false (Some ?l)) with (typed_columns env l).
    rewrite typed_columns_two_chars.
    change (drop_sql env _) with drop.
    destruct (fst (cursor_execute env drop [] (db w))); reflexivity.
Qed.

(** X13: with [create] set, whatever goes wrong in the constructor reaches
    the caller as a SqlmapGenericException whose message ends with the
    database path; no exception of the engine or of Python passes it. *)
Theorem Table_init_only_generic (parent0 : Replication) (name0 : pyval)
    (columns0 : option (list pyval)) (typeless : bool) (w w' : World env)
    (ex : exn) :
  Table_init env parent0 name0 columns0 true typeless w = (Raise ex, w') ->
  exn_cls ex = SqlmapGenericException
  /\ exists pre,
       exn_msg ex = pre ++ "located at '" ++ dbpath parent0 ++ "'".
Proof.
  intros H.
  destruct (Table_init_raises_generic env _ _ _ _ _ _ _ H) as [cause ->].
  split; [reflexivity|].
  exists ("problem occurred ('"
          ++ getSafeExString env cause (Some (UNICODE_ENCODING env))
          ++ "') while initializing the sqlite database ").
  unfold init_errMsg. simpl. rewrite append_assoc. reflexivity.
Qed.

End Further.

(** *** The further theorems at concrete inputs *)

Lemma insert_is_execute_witness :
  List.length [PInt 2; PStr "eve"] = 2
  /\ Table_insert Mini.env Mini.users [PInt 2; PStr "eve"] Mini.populated
     = Table_execute Mini.env Mini.users
         ("INSERT INTO " ++ dq ++ "users" ++ dq ++ " VALUES (?,?)")
         (Some [PInt 2; PStr "eve"]) Mini.populated.
Proof.
  split; [reflexivity|].
  exact (insert_is_execute Mini.env Mini.users _ [PInt 2; PStr "eve"]
           Mini.populated eq_refl eq_refl).
Defined.

Lemma bracket_completed_witness :
  let r := bind Mini.env (Table_beginTransaction Mini.env Mini.users)
             (fun _ => bind Mini.env
                (Table_insert Mini.env Mini.users [PInt 2; PStr "eve"])
                (fun _ => Table_endTransaction Mini.env Mini.users))
             Mini.populated in
  fst r = Return RNone
  /\ issued (snd r)
     = (issued Mini.populated
        ++ [("BEGIN TRANSACTION", []);
            (insert_sql Mini.env Mini.users 2, [PInt 2; PStr "eve"]);
            ("END TRANSACTION", [])])%list.
Proof.
  split; [reflexivity|].
  exact (proj2 (proj2 (bracket_completed Mini.env Mini.users _
                         [PInt 2; PStr "eve"] Mini.populated _ RNone
                         eq_refl eq_refl))).
Defined.

Lemma bracket_bad_row_witness :
  List.length [PInt 2] <> 2
  /\ issued (snd (bind Mini.env (Table_beginTransaction Mini.env Mini.users)
                    (fun _ => bind Mini.env
                       (Table_insert Mini.env Mini.users [PInt 2])
                       (fun _ => Table_endTransaction Mini.env Mini.users))
                    Mini.populated))
     = (issued Mini.populated ++ [("BEGIN TRANSACTION", [])])%list.
Proof.
  split; [discriminate|].
  exact (proj1 (proj2 (bracket_bad_row Mini.env Mini.users _ [PInt 2]
                         Mini.populated eq_refl ltac:(discriminate)))).
Defined.

Lemma Replication_other_errors_escape_witness :
  sqlite3_connect Checked.env Checked.nul_path
    = Raise (Exn ValueError "embedded null byte")
  /\ Replication_init Checked.env Checked.nul_path
     = Raise (Exn ValueError "embedded null byte").
Proof.
  split; [reflexivity|].
  exact (Replication_other_errors_escape Checked.env Checked.nul_path _
           eq_refl ltac:(discriminate)).
Defined.

Lemma createTable_destroys_on_failure_witness :
  (Mini.table_of (db Mini.populated) "users"
     = Some (create_sql Mini.env Mini.users Mini.typed_cols,
             [[PInt 1; PStr "bob"]])
   /\ malformed false None)
  /\ exists cause w',
       createTable Mini.env Mini.handle (PStr "users") None false Mini.populated
       = (Raise (Exn SqlmapGenericException
                   (init_errMsg Mini.env "/tmp/out.sqlite3" cause)), w')
       /\ Mini.table_of (db w') "users" = None.
Proof.
  split; [split; [reflexivity | left; reflexivity]|].
  exact (createTable_destroys_on_failure Mini.env Mini.table_of Mini.handle
           (PStr "users") None false Mini.populated (or_introl eq_refl)
           (Mini_drops "users" (drop_sql Mini.env Mini.users)
              eq_refl eq_refl eq_refl)).
Defined.

(** A name with a double quote in it breaks the quoting of the DROP. *)
Lemma Table_init_drop_fails_witness :
  Table_init Mini.env Mini.handle (PStr ("a" ++ dq ++ "b"))
    (Some [PStr "k"]) true true Mini.empty
  = (Raise (Exn SqlmapGenericException
       "problem occurred ('problem occurred ('syntax error') while accessing sqlite database located at '/tmp/out.sqlite3'. Please make sure that it's not used by some other program') while initializing the sqlite database located at '/tmp/out.sqlite3'"),
     mkWorld (env := Mini.env) []
       [("DROP TABLE IF EXISTS " ++ dq ++ "a" ++ dq ++ "b" ++ dq, [])]).
Proof.
  exact (Table_init_drop_fails Mini.env Mini.handle (PStr ("a" ++ dq ++ "b"))
           (Some [PStr "k"]) true Mini.empty _ _ eq_refl).
Defined.

(** A table with no column: the CREATE is a syntax error. *)
Lemma Table_init_create_fails_witness :
  column_list Checked.env true (Some []) = Return []
  /\ Table_init Checked.env Mini.handle (PStr "users") (Some []) true true
       Checked.populated
     = (Raise (Exn SqlmapGenericException
          "problem occurred ('problem occurred ('near ): syntax error') while accessing sqlite database located at '/tmp/out.sqlite3'. Please make sure that it's not used by some other program') while initializing the sqlite database located at '/tmp/out.sqlite3'"),
        mkWorld (env := Checked.env) []
          (issued Checked.populated
           ++ [(drop_sql Checked.env Mini.users, []);
               (create_sql Checked.env Mini.users [], [])])).
Proof.
  split; [reflexivity|].
  exact (Table_init_create_fails Checked.env Mini.handle (PStr "users")
           (Some []) true Checked.populated [] [] [] [] _
           eq_refl eq_refl eq_refl).
Defined.

Lemma createTable_returns_handle_witness :
  column_list Mini.env false (columns Mini.users) = Return Mini.typed_cols
  /\ createTable Mini.env Mini.handle (PStr "users") (columns Mini.users) false
       Mini.empty
     = (Return Mini.users,
        mkWorld (env := Mini.env)
          [("users", (create_sql Mini.env Mini.users Mini.typed_cols, []))]
          [(drop_sql Mini.env Mini.users, []);
           (create_sql Mini.env Mini.users Mini.typed_cols, [])]).
Proof.
  split; [reflexivity|].
  exact (createTable_returns_handle Mini.env Mini.handle (PStr "users")
           (columns Mini.users) false Mini.empty Mini.typed_cols [] [] _ _
           eq_refl eq_refl eq_refl).
Defined.

Lemma Table_init_only_generic_witness :
  fst (Table_init Mini.env Mini.handle (PStr "users") None true false Mini.empty)
    = Raise (Exn SqlmapGenericException
        "problem occurred (''NoneType' object is not iterable') while initializing the sqlite database located at '/tmp/out.sqlite3'")
  /\ exists pre,
       "problem occurred (''NoneType' object is not iterable') while initializing the sqlite database located at '/tmp/out.sqlite3'"
       = pre ++ "located at '" ++ "/tmp/out.sqlite3" ++ "'".
Proof.
  split; [reflexivity|].
  exact (proj2 (Table_init_only_generic Mini.env Mini.handle (PStr "users") None
                  false Mini.empty _ _ eq_refl)).
Defined.

(** *** More runs *)

(** [Replication.INTEGER] and the string INTEGER give one CREATE text. *)
Example run_DataType_column :
  issued (snd (createTable Mini.env Mini.handle (PStr "t")
                 (Some [PTuple [PStr "id"; PData INTEGER]]) false Mini.empty))
  = issued (snd (createTable Mini.env Mini.handle (PStr "t")
                   (Some [PTuple [PStr "id"; PStr "INTEGER"]]) false Mini.empty)).
Proof. reflexivity. Qed.

(** A bare name of another length in a typed table. *)
Example run_createTable_bare_name :
  fst (createTable Mini.env Mini.handle (PStr "t") (Some [PStr "name"])
         false Mini.empty)
  = Raise (Exn SqlmapGenericException
      "problem occurred ('too many values to unpack (expected 2)') while initializing the sqlite database located at '/tmp/out.sqlite3'").
Proof. reflexivity. Qed.

(** A doubled quote inside a quoted identifier stands for one quote. *)
Example run_ident_doubled_quote :
  Sql.ident (fun _ => false) (dq ++ "my table" ++ dq ++ dq ++ "x" ++ dq)
  = Some ("my table" ++ dq ++ "x").
Proof. reflexivity. Qed.

(** A reserved word is an identifier between quotes only. *)
Example run_ident_reserved :
  Sql.ident (String.eqb "select") "select" = None
  /\ Sql.ident (String.eqb "select") (dq ++ "select" ++ dq) = Some "select".
Proof. split; reflexivity. Qed.

(** A name with a double quote in it is not read back from its quoted form. *)
Example run_ident_quote_inside :
  Sql.ident (fun _ => false) (dq ++ ("a" ++ dq ++ "b") ++ dq) = Some "a".
Proof. reflexivity. Qed.
